(** * listings/views.py: availability, role assignment, access policy

    A shallow embedding of the view functions of [listings/views.py]
    (a Django REST framework module) and the properties of the booking
    availability check, the host-role rule, the per-action permissions and
    the listing query scoping.

    Modelling conventions:
    - a database table is a finite map from primary key to row;
    - a view method is a computation over the database that either returns
      a value or raises a Python exception; the writes made before an
      exception stay (Django's autocommit: the module opens no transaction);
    - every query sent to the database is appended to a log, so that
      "touches the database" can be stated;
    - a name that a function body reads and that the module never binds
      raises [NameError], a local read before assignment raises
      [UnboundLocalError], as in Python. *)

From Stdlib Require Import Ascii String.
From stdpp Require Import gmap strings list fin_maps.

Open Scope string_scope.
Open Scope list_scope.

(** ** Python outcomes *)

Inductive exn : Type :=
| NameError (name : string)
| UnboundLocalError (name : string)
| TypeError (msg : string)
| Http404
| NotAuthenticated
| PermissionDenied
| IntegrityError
| ConflictError.

Inductive outcome (A : Type) : Type :=
| Returned (a : A)
| Raised (e : exn).
Arguments Returned {A} a.
Arguments Raised {A} e.

(** ** Calendar dates ([datetime.date]) *)

Module date.
Record t : Type := mk { year : nat; month : nat; day : nat }.

(** [date.__lt__]: comparison of the (year, month, day) triples. *)
Definition ltb (a b : t) : bool :=
  if (year a <? year b)%nat then true
  else if (year b <? year a)%nat then false
  else if (month a <? month b)%nat then true
  else if (month b <? month a)%nat then false
  else (day a <? day b)%nat.

Definition gtb (a b : t) : bool := ltb b a.

Definition lt (a b : t) : Prop :=
  (year a < year b
   ∨ (year a = year b ∧ (month a < month b
                         ∨ (month a = month b ∧ day a < day b))))%nat.
End date.

(** ** Rows of the three tables the views touch

    [models.py] is not part of the sources; the rows carry the fields the
    views read or filter on. A model instance is a row with its primary
    key. *)

Record instance (A : Type) : Type := mk_instance { pk : nat; row : A }.
Arguments mk_instance {A} pk row.
Arguments pk {A} i.
Arguments row {A} i.

Module UserProfile.
Record t : Type := mk { role : string; email_verified : bool }.
(** [user_profile.role = r] *)
Definition with_role (r : string) (p : t) : t :=
  {| role := r; email_verified := email_verified p |}.
End UserProfile.

Module Listing.
Record t : Type :=
  mk { host : nat; name : string; city : string;
       price_per_night : nat; status : string }.
End Listing.

Module Booking.
Record t : Type :=
  mk { property : nat; user : nat; status : string;
       start_date : date.t; end_date : date.t }.
End Booking.

Record database : Type := mk_database {
  UserProfile_objects : gmap nat UserProfile.t;   (* keyed by user id *)
  Listing_objects : gmap nat Listing.t;           (* keyed by property_id *)
  Booking_objects : gmap nat Booking.t            (* keyed by booking_id *)
}.

Inductive query : Type :=
| SelectListing (property_id : nat)
| ExistsBooking (property : nat) (start_date end_date : date.t)
| CountBooking (property : nat) (start_date end_date : date.t)
| SelectProfile (user : nat)
| InsertProfile (user : nat)
| UpdateProfile (user : nat)
| InsertListing (property_id : nat)
| InsertBooking (booking_id : nat).

Record world : Type := mk_world { tables : database; queries : list query }.

Definition empty_database : database := mk_database ∅ ∅ ∅.
Definition initial_world : world := mk_world empty_database [].

(** ** The monad of view code: state and exceptions *)

Definition M (A : Type) : Type := world → outcome A * world.

Definition ret {A} (a : A) : M A := λ w, (Returned a, w).

Definition bind {A B} (m : M A) (k : A → M B) : M B :=
  λ w, match m w with
       | (Returned a, w') => k a w'
       | (Raised e, w') => (Raised e, w')
       end.

Definition raise {A} (e : exn) : M A := λ w, (Raised e, w).

Definition send (q : query) : M unit :=
  λ w, (Returned (), mk_world (tables w) (queries w ++ [q])).

Definition read_tables : M database := λ w, (Returned (tables w), w).

Definition write_tables (d : database) : M unit :=
  λ w, (Returned (), mk_world d (queries w)).

Declare Scope view_scope.
Delimit Scope view_scope with view.
Notation "x <- m ;; k" := (bind m (λ x, k))
  (at level 100, m at next level, right associativity) : view_scope.
Notation "m ;;; k" := (bind m (λ _, k))
  (at level 100, right associativity) : view_scope.
Open Scope view_scope.

(** ** Names bound at module level

    The names the import statements of [views.py] bind; [status] (of
    [rest_framework]) is not among them, and neither it nor [reuest] is a
    builtin. *)

Definition module_globals : list string :=
  [ "viewsets"; "permissions"; "action"; "Response"; "DjangoFilterBackend";
    "get_object_or_404"; "User"; "Q"; "Avg"; "date"; "datetime"; "timedelta";
    "UserProfile"; "Listing"; "Booking"; "Review";
    "UserProfileSerializer"; "ListingSerializer"; "BookingSerializer";
    "ReviewSerializer"; "ListingFilter"; "BookingFilter" ].

(** Reading the global [name]: [v] if the module binds it. *)
Definition global {A} (name : string) (v : A) : M A :=
  if bool_decide (name ∈ module_globals) then ret v else raise (NameError name).

(** ** Requests *)

Record Request : Type := mk_request {
  request_user : option nat;               (* None: anonymous *)
  query_params : gmap string string
}.

(** Python's [not s] on the result of [query_params.get]. *)
Definition py_not (s : option string) : bool :=
  match s with
  | None => true
  | Some s => bool_decide (s = "")
  end.

(** [Response(data, status=...)]; the status defaults to 200. *)
Inductive response_data : Type :=
| AvailabilityData (available : bool) (start_date end_date : date.t)
                   (conflicting_bookings : nat)
| ErrorData (error : string).

Record Response : Type := mk_response { data : response_data; status_code : nat }.

Definition HTTP_400_BAD_REQUEST : nat := 400.

(** ** The booking query of the availability check

    [Booking.objects.filter(property=listing,
       status__in=['pending', 'confirmed'],
       start_date__lt=end_date, end_date__gt=start_date)]:
    a lazy query set, run against the table by [exists()] and [count()]. *)

Record BookingQuerySet : Type := Booking_objects_filter {
  property : nat;
  status__in : list string;
  start_date__lt : date.t;
  end_date__gt : date.t
}.

Definition matches (qs : BookingQuerySet) (b : Booking.t) : bool :=
  bool_decide (Booking.property b = property qs)
  && bool_decide (Booking.status b ∈ status__in qs)
  && date.ltb (Booking.start_date b) (start_date__lt qs)
  && date.gtb (Booking.end_date b) (end_date__gt qs).

Definition rows (qs : BookingQuerySet) (d : database) : gmap nat Booking.t :=
  filter (λ kv, matches qs kv.2 = true) (Booking_objects d).

Definition qs_exists (qs : BookingQuerySet) : M bool :=
  send (ExistsBooking (property qs) (end_date__gt qs) (start_date__lt qs));;;
  d <- read_tables;;
  ret (negb (bool_decide (rows qs d = ∅))).

Definition qs_count (qs : BookingQuerySet) : M nat :=
  send (CountBooking (property qs) (end_date__gt qs) (start_date__lt qs));;;
  d <- read_tables;;
  ret (size (rows qs d)).

(** ** Permissions (rest_framework.permissions) and their enforcement *)

Inductive permission : Type := AllowAny | IsAuthenticated.

Definition has_permission (request : Request) (p : permission) : bool :=
  match p with
  | AllowAny => true
  | IsAuthenticated => bool_decide (is_Some (request_user request))
  end.

(** [APIView.permission_denied]. *)
Definition permission_denied {A} (request : Request) : M A :=
  match request_user request with
  | None => raise NotAuthenticated
  | Some _ => raise PermissionDenied
  end.

(** [APIView.check_permissions]: iterates over what [get_permissions]
    returned; [None] there is Python's [None], which cannot be iterated. *)
Definition check_permissions
    (get_permissions : outcome (option (list permission)))
    (request : Request) : M unit :=
  match get_permissions with
  | Raised e => raise e
  | Returned None => raise (TypeError "'NoneType' object is not iterable")
  | Returned (Some permissions) =>
      if forallb (has_permission request) permissions then ret ()
      else permission_denied request
  end.

(** [APIView.dispatch]: the permission check runs before the handler. *)
Definition dispatch {A}
    (get_permissions : outcome (option (list permission)))
    (request : Request) (handler : M A) : M A :=
  check_permissions get_permissions request;;;
  handler.

(** [has_object_permission] of [AllowAny] and of [IsAuthenticated] is the
    one of [BasePermission], which grants. *)
Definition has_object_permission (p : permission) : bool :=
  match p with
  | AllowAny => true
  | IsAuthenticated => true
  end.

(** [APIView.check_object_permissions], which [get_object] runs on the
    row it found: it iterates over what [get_permissions] returns. A
    refusal would go through [permission_denied]; none of the two classes
    refuses an object. *)
Definition check_object_permissions
    (get_permissions : outcome (option (list permission))) : M unit :=
  match get_permissions with
  | Raised e => raise e
  | Returned None => raise (TypeError "'NoneType' object is not iterable")
  | Returned (Some permissions) =>
      if forallb has_object_permission permissions then ret ()
      else raise PermissionDenied
  end.

Definition is_AuthorizationError {A} (o : outcome A) : bool :=
  match o with
  | Raised NotAuthenticated | Raised PermissionDenied => true
  | _ => false
  end.

(** ** Serializers

    [perform_create] receives the serializer as an argument and calls its
    [save(host=user_profile)]. *)

Record Serializer : Type :=
  mk_serializer { save : instance UserProfile.t → M unit }.

(** ** [UserProfile.objects.get_or_create] and [user_profile.save()] *)

(** Modelled from the spec: the defaults of the UserProfile fields that
    [get_or_create] does not set ([models.py] is absent); section 3 gives
    the profile a role and a verification flag, a fresh profile is
    unverified. *)
Definition new_profile (role : string) : UserProfile.t :=
  UserProfile.mk role false.

Definition UserProfile_get_or_create (user : nat) (defaults_role : string)
  : M (instance UserProfile.t * bool) :=
  send (SelectProfile user);;;
  d <- read_tables;;
  match UserProfile_objects d !! user with
  | Some p => ret (mk_instance user p, false)
  | None =>
      let p := new_profile defaults_role in
      send (InsertProfile user);;;
      write_tables (mk_database (<[user := p]> (UserProfile_objects d))
                                (Listing_objects d) (Booking_objects d));;;
      ret (mk_instance user p, true)
  end.

Definition UserProfile_save (p : instance UserProfile.t) : M unit :=
  send (UpdateProfile (pk p));;;
  d <- read_tables;;
  write_tables (mk_database (<[pk p := row p]> (UserProfile_objects d))
                            (Listing_objects d) (Booking_objects d)).

(** ** Pagination and lookups of the list-like actions

    [self.paginate_queryset(queryset)] returns [None] when the view has no
    paginator, a page of the query set otherwise, and raises [NotFound]
    for a page that does not exist. *)

Inductive paginated (page : Type) : Type :=
| NoPaginator
| Page (p : page)
| InvalidPage.
Arguments NoPaginator {page}.
Arguments Page {page} p.
Arguments InvalidPage {page}.

(** How [ListingViews.search] can end without a response: the ORM refuses
    the value given for a field lookup, the page does not exist, or an
    attribute is missing on the view. *)
Inductive search_error : Type :=
| LookupValueError (field value : string)
| PageNotFound
| AttributeError (name : string).

Definition and_then {E A B} (r : E + A) (k : A → E + B) : E + B :=
  match r with
  | inl e => inl e
  | inr a => k a
  end.

(** ** class UserProfileVViews *)

Module UserProfileVViews.

Inductive permission_class : Type :=
| AllowAny
| IsAuthenticated
| IsAuthenticatedOrReadOnly.

(** [get_permissions]: the last branch assigns [permission_clasess], the
    return statement reads [permission_classes]. *)
Definition get_permissions (action : string)
  : outcome (option (list permission_class)) :=
  let '(permission_classes, permission_clasess) :=
    if bool_decide (action = "list") then
      (Some [IsAuthenticatedOrReadOnly], None)
    else if bool_decide (action = "create") then
      (Some [AllowAny], None)
    else
      (None, Some [IsAuthenticated]) in
  match permission_classes with
  | Some permission_classes => Returned (Some permission_classes)
  | None => Raised (UnboundLocalError "permission_classes")
  end.

(** [rest_framework.permissions.SAFE_METHODS] *)
Definition SAFE_METHODS : list string := ["GET"; "HEAD"; "OPTIONS"].

Definition has_permission (method : string) (request : Request)
    (p : permission_class) : bool :=
  match p with
  | AllowAny => true
  | IsAuthenticated => bool_decide (is_Some (request_user request))
  | IsAuthenticatedOrReadOnly =>
      bool_decide (method ∈ SAFE_METHODS)
      || bool_decide (is_Some (request_user request))
  end.

(** [APIView.dispatch] for this view set: [check_permissions] over what
    [get_permissions] returned, then the handler. *)
Definition dispatch {A} (action method : string) (request : Request)
    (handler : M A) : M A :=
  match get_permissions action with
  | Raised e => raise e
  | Returned None => raise (TypeError "'NoneType' object is not iterable")
  | Returned (Some permissions) =>
      if forallb (has_permission method request) permissions then handler
      else permission_denied request
  end.

Definition HTTP_404_NOT_FOUND : nat := 404.

Inductive me_body (data : Type) : Type :=
| ProfileData (d : data)
| ErrorBody (error : string).
Arguments ProfileData {data} d.
Arguments ErrorBody {data} error.

Section me.
(** [self.get_serializer(profile).data] *)
Variable data : Type.
Variable serializer_data : instance UserProfile.t → data.

(** [me], for the principal [user] of the request; the result is the body
    of the response and its status. *)
Definition me (user : nat) : M (me_body data * nat) :=
  send (SelectProfile user);;;
  d <- read_tables;;
  match UserProfile_objects d !! user with
  | Some profile =>
      ret (ProfileData (serializer_data (mk_instance user profile)), 200)
  | None =>
      status <- global "status" HTTP_404_NOT_FOUND;;
      ret (ErrorBody "Profile not found", status)
  end.
End me.

End UserProfileVViews.

(** ** class ListingViews *)

Module ListingViews.

(** [get_queryset]; [select_related] only prefetches the host. *)
Definition get_queryset (action : string) (d : database) : gmap nat Listing.t :=
  if bool_decide (action = "list") then
    filter (λ kv, Listing.status kv.2 = "approved") (Listing_objects d)
  else
    Listing_objects d.

(** [get_permissions]: the last branch assigns [permission_classess],
    the return statement reads [permission_classes]. *)
Definition get_permissions (action : string)
  : outcome (option (list permission)) :=
  let '(permission_classes, permission_classess) :=
    if bool_decide (action ∈ ["list"; "retrieve"]) then
      (Some [AllowAny], None)
    else if bool_decide (action = "create") then
      (Some [IsAuthenticated], None)
    else
      (None, Some [IsAuthenticated]) in
  match permission_classes with
  | Some permission_classes => Returned (Some permission_classes)
  | None => Raised (UnboundLocalError "permission_classes")
  end.

(** [self.get_object()] ([GenericAPIView.get_object]): the row of
    [get_queryset()] whose [lookup_field] ([property_id]) is the one of
    the URL, or 404; then [check_object_permissions] on that row, which
    calls [get_permissions]. *)
Definition get_object (action : string) (property_id : nat)
  : M (instance Listing.t) :=
  send (SelectListing property_id);;;
  d <- read_tables;;
  match get_queryset action d !! property_id with
  | Some listing =>
      check_object_permissions (get_permissions action);;;
      ret (mk_instance property_id listing)
  | None => raise Http404
  end.

(** The [list] and [retrieve] actions of the model view set, over
    [get_queryset]. *)
Definition list_action (d : database) : gmap nat Listing.t :=
  get_queryset "list" d.

Definition retrieve (property_id : nat) : M (instance Listing.t) :=
  get_object "retrieve" property_id.

Definition perform_create (user : nat) (serializer : Serializer) : M unit :=
  got <- UserProfile_get_or_create user "host";;
  let '(user_profile, created) := got in
  user_profile <-
    (if negb (bool_decide (UserProfile.role (row user_profile) = "host")) then
       let user_profile :=
         mk_instance (pk user_profile)
                     (UserProfile.with_role "host" (row user_profile)) in
       UserProfile_save user_profile;;;
       ret user_profile
     else ret user_profile);;
  save serializer user_profile.

Section availability.
(** [datetime.strptime(s, '%Y-%m-%d').date()]; [None] is [ValueError]. *)
Variable strptime : string → option date.t.

Definition availability (request : Request) (property_id : nat)
  : M Response :=
  listing <- get_object "availability" property_id;;
  let start_date := query_params request !! "start_date" in
  let end_date := query_params request !! "end_date" in
  if py_not start_date || py_not end_date then
    status <- global "status" HTTP_400_BAD_REQUEST;;
    ret (mk_response
           (ErrorData "start_date and end_date parameters are required.")
           status)
  else
    match (s ← start_date ≫= strptime;
           e ← end_date ≫= strptime;
           Some (s, e)) with
    | None =>
        status <- global "status" HTTP_400_BAD_REQUEST;;
        ret (mk_response (ErrorData "Invalid date format. Use YYYY-MM-DD")
                         status)
    | Some (start_date, end_date) =>
        let conflicting_bookings :=
          Booking_objects_filter (pk listing) ["pending"; "confirmed"]
                                 end_date start_date in
        conflicting_exists <- qs_exists conflicting_bookings;;
        let is_available := negb conflicting_exists in
        conflicting_count <- qs_count conflicting_bookings;;
        ret (mk_response
               (AvailabilityData is_available start_date end_date
                                 conflicting_count)
               200)
    end.
End availability.

Section search.
(** [lookup field value]: the row test of [queryset.filter(field=value)],
    or [None] when the ORM refuses [value] for that field (the fields and
    their types are those of [models.py]). *)
Variable lookup : string → string → option (Listing.t → bool).
Variable page : Type.
Variable paginate_queryset : Request → gmap nat Listing.t → paginated page.

Definition queryset_filter (field : string) (value : option string)
    (queryset : gmap nat Listing.t) : search_error + gmap nat Listing.t :=
  match lookup field (default "" value) with
  | Some test => inr (filter (λ kv, test kv.2 = true) queryset)
  | None => inl (LookupValueError field (default "" value))
  end.

(** The query set [search] builds, up to the pagination. *)
Definition search_queryset (request : Request) (d : database)
  : search_error + gmap nat Listing.t :=
  let queryset := get_queryset "search" d in
  let city := query_params request !! "city" in
  and_then
    (if negb (py_not city) then queryset_filter "city__icontains" city queryset
     else inr queryset) (λ queryset,
  let min_price := query_params request !! "min_price" in
  let max_price := query_params request !! "max_price" in
  and_then
    (if negb (py_not min_price) then
       queryset_filter "price_per_night__gte" min_price queryset
     else inr queryset) (λ queryset,
  and_then
    (if negb (py_not max_price) then
       queryset_filter "price_per_night__lte" max_price queryset
     else inr queryset) (λ queryset,
  let bedrooms := query_params request !! "bedrooms" in
  and_then
    (if negb (py_not bedrooms) then
       queryset_filter "bedrooms__gte" bedrooms queryset
     else inr queryset) (λ queryset,
  let guests := query_params request !! "guests" in
  (if negb (py_not guests) then
     queryset_filter "max_guests__gte" guests queryset
   else inr queryset))))).

(** [search]: the page of the query set when there is a paginator;
    without one the body goes on to [self.get_srializer], an attribute the
    view does not have. *)
Definition search (request : Request) (d : database) : search_error + page :=
  and_then (search_queryset request d) (λ queryset,
  match paginate_queryset request queryset with
  | Page page => inr page
  | InvalidPage => inl PageNotFound
  | NoPaginator => inl (AttributeError "get_srializer")
  end).
End search.

End ListingViews.

(** ** class BookingViews *)

Module BookingViews.

(** [get_permissions]: every branch assigns [permission_classes] and the
    body ends; the method returns [None]. *)
Definition get_permissions (action : string)
  : outcome (option (list permission)) :=
  let permission_classes :=
    if bool_decide (action ∈ ["list"; "retrieve"]) then [AllowAny]
    else if bool_decide (action = "create") then [IsAuthenticated]
    else [IsAuthenticated] in
  Returned None.

(** The second [perform_create] of the class body (it replaces the
    first, which holds the permission table under the wrong name). *)
Definition perform_create (user : nat) (serializer : Serializer) : M unit :=
  got <- UserProfile_get_or_create user "host";;
  let '(user_profile, created) := got in
  user_profile <-
    (if negb (bool_decide (UserProfile.role (row user_profile) = "host")) then
       let user_profile :=
         mk_instance (pk user_profile)
                     (UserProfile.with_role "host" (row user_profile)) in
       UserProfile_save user_profile;;;
       ret user_profile
     else ret user_profile);;
  save serializer user_profile.

Section availability.
Variable strptime : string → option date.t.
(** [self.get_object()] of this class looks [booking_id] up among the
    listings; what it yields depends on [models.py] and is left open. *)
Variable get_object : M (instance Listing.t).

(** The result is [None] where the body ends without [return]. *)
Definition availability (request : Request) : M (option Response) :=
  listing <- get_object;;
  start_date <- (reuest <- global "reuest" request;;
                 ret (query_params reuest !! "start_date"));;
  let end_date := query_params request !! "end_date" in
  if py_not start_date || py_not end_date then
    status <- global "status" HTTP_400_BAD_REQUEST;;
    ret (Some (mk_response
           (ErrorData "start_date and end_date parameters are required")
           status))
  else
    match (s ← start_date ≫= strptime;
           e ← end_date ≫= strptime;
           Some (s, e)) with
    | None =>
        status <- global "status" HTTP_400_BAD_REQUEST;;
        ret (Some (mk_response
               (ErrorData "Invalid date format. Use YYYY-MM-DD") status))
    | Some (start_date, end_date) =>
        let conflicting_bookings :=
          Booking_objects_filter (pk listing) ["pending"; "confirmed"]
                                 end_date start_date in
        conflicting_exists <- qs_exists conflicting_bookings;;
        let is_available := negb conflicting_exists in
        ret None
    end.
End availability.

End BookingViews.

(** ** Serializers of the two creation flows *)

Module ListingSerializer.
Record validated_data : Type :=
  mk { name : string; city : string; price_per_night : nat; status : string }.

(** Modelled from the spec: [ListingSerializer.save(host=profile)]
    ([serializers.py] and [models.py] are absent). Section 4.3: the
    profile becomes the owning party of the newly created listing; the
    new row gets a primary key not yet in the table. *)
Definition serializer (v : validated_data) : Serializer :=
  mk_serializer (λ host,
    d <- read_tables;;
    let property_id := fresh (dom (Listing_objects d)) in
    send (InsertListing property_id);;;
    write_tables
      (mk_database (UserProfile_objects d)
         (<[property_id := Listing.mk (pk host) (name v)
                             (city v) (price_per_night v) (status v)]>
            (Listing_objects d))
         (Booking_objects d))).
End ListingSerializer.

Module BookingSerializer.
Record validated_data : Type :=
  mk { property : nat; status : string;
       start_date : date.t; end_date : date.t }.

(** Modelled from the spec: [BookingSerializer.save(host=profile)], the
    persistence step of createBooking ([serializers.py] and [models.py]
    are absent). Sections 5, 6 and 7: the step runs the conflict test of
    section 4.2 against the stored bookings and refuses the booking with a
    conflict error when the interval is unavailable; only then it
    inserts. Sections 3 and 4.3: a booking references a listing and the
    booking profile, which becomes its owning party; the insert is
    refused when the referenced listing is absent, and the new row gets a
    primary key not yet in the table. *)
Definition serializer (v : validated_data) : Serializer :=
  mk_serializer (λ host,
    let conflicting_bookings :=
      Booking_objects_filter (property v) ["pending"; "confirmed"]
                             (end_date v) (start_date v) in
    conflicting_exists <- qs_exists conflicting_bookings;;
    if conflicting_exists then raise ConflictError
    else
      d <- read_tables;;
      let booking_id := fresh (dom (Booking_objects d)) in
      send (InsertBooking booking_id);;;
      if bool_decide (is_Some (Listing_objects d !! property v)) then
        write_tables
          (mk_database (UserProfile_objects d) (Listing_objects d)
             (<[booking_id := Booking.mk (property v) (pk host)
                                (status v) (start_date v) (end_date v)]>
                (Booking_objects d)))
      else raise IntegrityError).
End BookingSerializer.

(** ** An instance of [strptime] for ['%Y-%m-%d']

    The handlers take [strptime] as a parameter; this instance gives its
    values on strings of ASCII characters and is used on such strings
    only. It follows the regular expression of [_strptime] for the format:
    four digits, a month [1[0-2]|0[1-9]|[1-9]], a day
    [3[01]|[12]\d|0[1-9]|[1-9]| [1-9]], nothing after it, and the triple
    must be a date of the calendar. Python's [\d] also takes the decimal
    digits of other scripts, which this instance refuses. *)

Definition digit_of (c : ascii) : option nat :=
  let n := nat_of_ascii c in
  if ((48 <=? n) && (n <=? 57))%nat then Some (n - 48)%nat else None.

Definition is_leap (y : nat) : bool :=
  ((y mod 4 =? 0) && (negb (y mod 100 =? 0) || (y mod 400 =? 0)))%nat.

Definition days_in_month (y m : nat) : nat :=
  match m with
  | 1 | 3 | 5 | 7 | 8 | 10 | 12 => 31
  | 4 | 6 | 9 | 11 => 30
  | 2 => if is_leap y then 29 else 28
  | _ => 0
  end%nat.

Definition parse_year (s : string) : option (nat * string) :=
  match s with
  | String a (String b (String c (String d rest))) =>
      a ← digit_of a; b ← digit_of b; c ← digit_of c; d ← digit_of d;
      Some (1000 * a + 100 * b + 10 * c + d, rest)%nat
  | _ => None
  end.

Definition parse_month (s : string) : option (nat * string) :=
  match s with
  | String a (String b rest) =>
      match digit_of a, digit_of b with
      | Some 1, Some d => if (d <=? 2)%nat then Some (10 + d, rest)%nat else None
      | Some 0, Some d => if (1 <=? d)%nat then Some (d, rest) else None
      | Some d, None => if (1 <=? d)%nat then Some (d, String b rest) else None
      | _, _ => None
      end
  | _ => None
  end.

Definition parse_day (s : string) : option nat :=
  match s with
  | String a EmptyString =>
      d ← digit_of a; if (1 <=? d)%nat then Some d else None
  | String a (String b EmptyString) =>
      if bool_decide (a = " "%char) then
        d ← digit_of b; if (1 <=? d)%nat then Some d else None
      else
        match digit_of a, digit_of b with
        | Some 3, Some d => if (d <=? 1)%nat then Some (30 + d)%nat else None
        | Some 2, Some d => Some (20 + d)%nat
        | Some 1, Some d => Some (10 + d)%nat
        | Some 0, Some d => if (1 <=? d)%nat then Some d else None
        | _, _ => None
        end
  | _ => None
  end.

Definition dash (s : string) : option string :=
  match s with
  | String "-" rest => Some rest
  | _ => None
  end.

Definition strptime_Ymd (s : string) : option date.t :=
  '(y, s) ← parse_year s;
  s ← dash s;
  '(m, s) ← parse_month s;
  s ← dash s;
  d ← parse_day s;
  if ((1 <=? y) && (d <=? days_in_month y m))%nat then Some (date.mk y m d)
  else None.


(** ** The interval model and the booking invariant, in the spec's words *)

(** Section 4.1: intervals A and B overlap iff
    [A.start < B.end AND B.start < A.end]. *)
Definition overlap (a_start a_end b_start b_end : date.t) : Prop :=
  date.lt a_start b_end ∧ date.lt b_start a_end.

(** Glossary: an active booking is pending or confirmed. *)
Definition active (status : string) : Prop :=
  status = "pending" ∨ status = "confirmed".

(** Section 4.2: the bookings of [listing] in an active state whose
    interval overlaps the queried one. *)
Definition blocks (listing : nat) (start_date end_date : date.t)
    (b : Booking.t) : Prop :=
  Booking.property b = listing
  ∧ active (Booking.status b)
  ∧ overlap (Booking.start_date b) (Booking.end_date b) start_date end_date.

#[global] Instance blocks_dec listing start_date end_date b :
  Decision (blocks listing start_date end_date b) :=
  ltac:(unfold blocks, active, overlap, date.lt; apply _).

Definition blocking (listing : nat) (start_date end_date : date.t)
    (d : database) : gmap nat Booking.t :=
  filter (λ kv, blocks listing start_date end_date kv.2) (Booking_objects d).

(** Section 3: no two distinct active bookings of one listing overlap. *)
Definition no_double_booking (d : database) : Prop :=
  ∀ i j a b,
    Booking_objects d !! i = Some a →
    Booking_objects d !! j = Some b →
    i ≠ j →
    Booking.property a = Booking.property b →
    active (Booking.status a) →
    active (Booking.status b) →
    ¬ overlap (Booking.start_date a) (Booking.end_date a)
              (Booking.start_date b) (Booking.end_date b).

(** ** Reachable states *)

Definition createListing (user : nat) (v : ListingSerializer.validated_data)
  : M unit :=
  ListingViews.perform_create user (ListingSerializer.serializer v).

Definition createBooking (user : nat) (v : BookingSerializer.validated_data)
  : M unit :=
  BookingViews.perform_create user (BookingSerializer.serializer v).

Inductive step : world → world → Prop :=
| step_createListing user v w :
    step w (snd (createListing user v w))
| step_createBooking user v w :
    step w (snd (createBooking user v w))
| step_availability strptime request property_id w :
    step w (snd (ListingViews.availability strptime request property_id w)).

Inductive reachable : world → Prop :=
| reachable_initial : reachable initial_world
| reachable_step w w' : reachable w → step w w' → reachable w'.

(** The conflict query of the availability check for the booking data [v]. *)
Definition conflict_query (v : BookingSerializer.validated_data)
  : BookingQuerySet :=
  Booking_objects_filter (BookingSerializer.property v)
    ["pending"; "confirmed"]
    (BookingSerializer.end_date v) (BookingSerializer.start_date v).

(** The profile a creation leaves for its principal: a fresh host profile,
    or the existing one with its role set to host. *)
Definition host_profile (existing : option UserProfile.t) : UserProfile.t :=
  match existing with
  | None => new_profile "host"
  | Some p => UserProfile.with_role "host" p
  end.

(** The tables and the query log once the principal's profile is ensured. *)
Definition promoted (user : nat) (d : database) : database :=
  mk_database
    (<[user := host_profile (UserProfile_objects d !! user)]>
       (UserProfile_objects d))
    (Listing_objects d) (Booking_objects d).

Definition promotion_queries (user : nat) (existing : option UserProfile.t)
  : list query :=
  match existing with
  | None => [SelectProfile user; InsertProfile user]
  | Some p =>
      if bool_decide (UserProfile.role p = "host") then [SelectProfile user]
      else [SelectProfile user; UpdateProfile user]
  end.

(** A serializer whose [save] writes nothing to the profile table. *)
Definition keeps_profiles (serializer : Serializer) : Prop :=
  ∀ host w0,
    UserProfile_objects (tables (snd (save serializer host w0)))
    = UserProfile_objects (tables w0).

Definition is_availability_query (q : query) : bool :=
  match q with
  | ExistsBooking _ _ _ | CountBooking _ _ _ => true
  | _ => false
  end.


(** The query parameters of [search] and the field lookup each feeds. *)
Definition search_parameters : list (string * string) :=
  [ ("city", "city__icontains");
    ("min_price", "price_per_night__gte");
    ("max_price", "price_per_night__lte");
    ("bedrooms", "bedrooms__gte");
    ("guests", "max_guests__gte") ].

(** Every listing's host and every booking's user has a host profile. *)
Definition has_host_profile (d : database) (user : nat) : Prop :=
  ∃ p, UserProfile_objects d !! user = Some p ∧ UserProfile.role p = "host".

Definition owners_are_hosts (d : database) : Prop :=
  (∀ k l, Listing_objects d !! k = Some l → has_host_profile d (Listing.host l))
  ∧ (∀ k b, Booking_objects d !! k = Some b →
            has_host_profile d (Booking.user b)).

(** [a <= b] on dates. *)
Definition date_leb (a b : date.t) : bool := negb (date.ltb b a).

(** ** Sample data *)

Definition d_2024_01_01 : date.t := date.mk 2024 1 1.
Definition d_2024_01_03 : date.t := date.mk 2024 1 3.
Definition d_2024_01_04 : date.t := date.mk 2024 1 4.
Definition d_2024_01_05 : date.t := date.mk 2024 1 5.
Definition d_2024_01_07 : date.t := date.mk 2024 1 7.
Definition d_2024_01_10 : date.t := date.mk 2024 1 10.

Definition dates_request (user : option nat) (start_date end_date : string)
  : Request :=
  mk_request user (<["start_date" := start_date]> (<["end_date" := end_date]> ∅)).

(** A request without credentials and without query parameters. *)
Definition anonymous : Request := mk_request None ∅.

Definition cottage : ListingSerializer.validated_data :=
  ListingSerializer.mk "Cottage" "Nakuru" 80 "pending".

(** User 1 has listed the cottage (listing 0). *)
Definition world_listed : world := snd (createListing 1 cottage initial_world).

(** User 2 has booked listing 0 for [2024-01-01, 2024-01-05). *)
Definition world_booked : world :=
  snd (createBooking 2
         (BookingSerializer.mk 0 "pending" d_2024_01_01 d_2024_01_05)
         world_listed).

(** User 2 has booked listing 0 for [2024-01-03, 2024-01-04). *)
Definition world_short_stay : world :=
  snd (createBooking 2
         (BookingSerializer.mk 0 "confirmed" d_2024_01_03 d_2024_01_04)
         world_listed).

(** User 3 has then asked for listing 0 for [2024-01-01, 2024-01-10). *)
Definition long_stay : BookingSerializer.validated_data :=
  BookingSerializer.mk 0 "pending" d_2024_01_01 d_2024_01_10.

Definition world_double : world := snd (createBooking 3 long_stay world_short_stay).

(** After [world_booked], user 3 has booked listing 0 for
    [2024-01-05, 2024-01-10). *)
Definition world_two_stays : world :=
  snd (createBooking 3
         (BookingSerializer.mk 0 "confirmed" d_2024_01_05 d_2024_01_10)
         world_booked).

(** Listing 0 also carries a cancelled booking over the same nights. *)
Definition world_cancelled : world :=
  mk_world
    (mk_database (UserProfile_objects (tables world_short_stay))
       (Listing_objects (tables world_short_stay))
       (<[1 := Booking.mk 0 4 "cancelled" d_2024_01_01 d_2024_01_10]>
          (Booking_objects (tables world_short_stay))))
    (queries world_short_stay).

(** A lookup table for one field: the city, compared as it is written. *)
Definition city_lookup (field value : string) : option (Listing.t → bool) :=
  if bool_decide (field = "city__icontains") then
    Some (λ l, bool_decide (Listing.city l = value))
  else None.

(** A paginator that puts the whole query set on one page. *)
Definition one_page (request : Request) (queryset : gmap nat Listing.t)
  : paginated (gmap nat Listing.t) :=
  Page queryset.

(** A guest profile for user 5, as the profile endpoints create it. *)
Definition world_guest : world :=
  mk_world (mk_database {[ 5 := UserProfile.mk "guest" true ]} ∅ ∅) [].

(** * Properties *)

(** Unfolds the monad down to functions on worlds. *)
Ltac run_view :=
  unfold bind, send, read_tables, write_tables, ret, raise; simpl.

(** ** Dates *)

Lemma date_ltb_lt (a b : date.t) : date.ltb a b = true ↔ date.lt a b.
Proof.
  unfold date.ltb, date.lt.
  destruct (Nat.ltb_spec (date.year a) (date.year b)); [intuition lia|].
  destruct (Nat.ltb_spec (date.year b) (date.year a)); [intuition lia|].
  destruct (Nat.ltb_spec (date.month a) (date.month b)); [intuition lia|].
  destruct (Nat.ltb_spec (date.month b) (date.month a)); [intuition lia|].
  rewrite Nat.ltb_lt. intuition lia.
Qed.

Lemma date_ltb_irrefl (a : date.t) : date.ltb a a = false.
Proof.
  destruct (date.ltb a a) eqn:H; [|done].
  apply date_ltb_lt in H. unfold date.lt in H. lia.
Qed.

(** ** The conflict query against the spec's wording *)

Lemma elem_of_active (status : string) :
  status ∈ ["pending"; "confirmed"] ↔ active status.
Proof.
  unfold active. rewrite !elem_of_cons, elem_of_nil. tauto.
Qed.

Lemma matches_blocks (listing : nat) (s e : date.t) (b : Booking.t) :
  matches (Booking_objects_filter listing ["pending"; "confirmed"] e s) b = true
  ↔ blocks listing s e b.
Proof.
  unfold matches, blocks, overlap, date.gtb; simpl.
  rewrite !andb_true_iff, !bool_decide_eq_true, !date_ltb_lt, elem_of_active.
  tauto.
Qed.

Lemma rows_blocking (listing : nat) (s e : date.t) (d : database) :
  rows (Booking_objects_filter listing ["pending"; "confirmed"] e s) d
  = blocking listing s e d.
Proof.
  unfold rows, blocking.
  apply (proj1 (map_filter_ext _ _ _)). intros i b _. simpl.
  apply matches_blocks.
Qed.

(** ** Running the availability handler *)

Lemma rows_lookup (listing : nat) (s e : date.t) (d : database)
    (k : nat) (b : Booking.t) :
  rows (Booking_objects_filter listing ["pending"; "confirmed"] e s) d !! k
  = Some b
  ↔ Booking_objects d !! k = Some b
    ∧ Booking.property b = listing
    ∧ active (Booking.status b)
    ∧ date.lt (Booking.start_date b) e
    ∧ date.lt s (Booking.end_date b).
Proof.
  unfold rows. rewrite map_lookup_filter_Some. simpl.
  rewrite matches_blocks. unfold blocks, overlap. tauto.
Qed.

(** The handler ends in [get_object]: 404 when the listing is absent, and
    otherwise the [UnboundLocalError] of [get_permissions], which
    [check_object_permissions] calls for the action [availability]. *)
Lemma availability_run
    (strptime : string → option date.t) (request : Request)
    (property_id : nat) (w : world) :
  ListingViews.availability strptime request property_id w
  = (match Listing_objects (tables w) !! property_id with
     | Some _ => Raised (UnboundLocalError "permission_classes")
     | None => Raised Http404
     end,
     mk_world (tables w) (queries w ++ [SelectListing property_id])).
Proof.
  unfold ListingViews.availability, ListingViews.get_object,
    ListingViews.get_queryset, check_object_permissions. run_view.
  by destruct (Listing_objects (tables w) !! property_id).
Qed.

(** C1. For an existing listing and two well-formed dates,
    [ListingViews.availability] returns no response at all: once
    [get_object] has found the listing, its permission check calls
    [get_permissions], which raises [UnboundLocalError] for this action;
    the booking query of lines 229-234 is never sent and no table
    changes. *)
Theorem availability_raises_before_query
    (strptime : string → option date.t) (request : Request)
    (property_id : nat) (listing : Listing.t) (w : world)
    (sd ed : string) (s e : date.t) :
  Listing_objects (tables w) !! property_id = Some listing →
  query_params request !! "start_date" = Some sd →
  query_params request !! "end_date" = Some ed →
  sd ≠ "" → ed ≠ "" →
  strptime sd = Some s → strptime ed = Some e →
  ∃ w',
    ListingViews.availability strptime request property_id w
    = (Raised (UnboundLocalError "permission_classes"), w')
    ∧ tables w' = tables w
    ∧ queries w' = queries w ++ [SelectListing property_id]
    ∧ existsb is_availability_query (queries w')
      = existsb is_availability_query (queries w).
Proof.
  intros Hl _ _ _ _ _ _. rewrite availability_run, Hl.
  eexists. split; [done|]. split; [done|]. split; [done|].
  simpl. by rewrite existsb_app, orb_false_r.
Qed.

Lemma availability_raises_before_query_witness :
  ∃ w',
    ListingViews.availability strptime_Ymd
      (dates_request None "2024-01-01" "2024-01-10") 0 world_short_stay
    = (Raised (UnboundLocalError "permission_classes"), w')
    ∧ tables w' = tables world_short_stay
    ∧ queries w' = queries world_short_stay ++ [SelectListing 0]
    ∧ existsb is_availability_query (queries w')
      = existsb is_availability_query (queries world_short_stay).
Proof.
  apply (availability_raises_before_query strptime_Ymd
           (dates_request None "2024-01-01" "2024-01-10") 0
           (Listing.mk 1 "Cottage" "Nakuru" 80 "pending") world_short_stay
           "2024-01-01" "2024-01-10" d_2024_01_01 d_2024_01_10);
    first [ by vm_compute | discriminate ].
Defined.

(** C2. The conflict test of the query is the half-open overlap: a row
    is selected exactly when it belongs to the listing, is pending or
    confirmed, and [start_date < e] and [s < end_date]; a booking that
    ends where the query starts, or starts where it ends, never matches.
    But the handler does not report it: with [2024-01-01, 2024-01-05)
    booked, the query for [2024-01-05, 2024-01-10) selects nothing, and
    the request still ends in the [UnboundLocalError] of [get_object]
    instead of the answer available. *)
Theorem adjacent_interval_never_answered :
  (∀ listing s e d k b,
     rows (Booking_objects_filter listing ["pending"; "confirmed"] e s) d !! k
     = Some b
     ↔ Booking_objects d !! k = Some b
       ∧ Booking.property b = listing
       ∧ active (Booking.status b)
       ∧ date.lt (Booking.start_date b) e
       ∧ date.lt s (Booking.end_date b))
  ∧ (∀ listing e b,
       matches (Booking_objects_filter listing ["pending"; "confirmed"]
                  e (Booking.end_date b)) b = false)
  ∧ (∀ listing s b,
       matches (Booking_objects_filter listing ["pending"; "confirmed"]
                  (Booking.start_date b) s) b = false)
  ∧ Booking_objects (tables world_booked) !! 0
    = Some (Booking.mk 0 2 "pending" d_2024_01_01 d_2024_01_05)
  ∧ rows (Booking_objects_filter 0 ["pending"; "confirmed"]
            d_2024_01_10 d_2024_01_05) (tables world_booked) = ∅
  ∧ fst (ListingViews.availability strptime_Ymd
           (dates_request None "2024-01-05" "2024-01-10") 0 world_booked)
    = Raised (UnboundLocalError "permission_classes").
Proof.
  split; [|split; [|split; [|split; [|split]]]].
  - intros. apply rows_lookup.
  - intros listing e b. unfold matches, date.gtb; simpl.
    rewrite date_ltb_irrefl. apply andb_false_r.
  - intros listing s b. unfold matches; simpl.
    rewrite date_ltb_irrefl. by rewrite andb_false_r.
  - by vm_compute.
  - by vm_compute.
  - by vm_compute.
Qed.

(** ** Rejected dates *)

Lemma status_unbound {A} (v : A) : global "status" v = raise (NameError "status").
Proof.
  unfold global.
  assert (bool_decide ("status" ∈ module_globals) = false) as ->
    by (by vm_compute).
  done.
Qed.




(** ** Query scoping *)

(** C7. The list action returns exactly the listings whose status is
    approved; retrieve, create, update and delete work on the whole
    table; so a listing that is not approved is absent from the list
    results and is returned by a retrieve of its id. *)
Theorem list_scoped_to_approved (d : database) :
  (∀ k l, ListingViews.list_action d !! k = Some l
          ↔ Listing_objects d !! k = Some l ∧ Listing.status l = "approved")
  ∧ ListingViews.get_queryset "retrieve" d = Listing_objects d
  ∧ ListingViews.get_queryset "create" d = Listing_objects d
  ∧ ListingViews.get_queryset "update" d = Listing_objects d
  ∧ ListingViews.get_queryset "partial_update" d = Listing_objects d
  ∧ ListingViews.get_queryset "destroy" d = Listing_objects d
  ∧ (∀ k l log,
       Listing_objects d !! k = Some l →
       Listing.status l ≠ "approved" →
       ListingViews.list_action d !! k = None
       ∧ ListingViews.retrieve k (mk_world d log)
         = (Returned (mk_instance k l), mk_world d (log ++ [SelectListing k]))).
Proof.
  split; [|repeat (split; [done|])].
  - intros k l. unfold ListingViews.list_action, ListingViews.get_queryset.
    simpl. by rewrite map_lookup_filter_Some.
  - intros k l log Hl Hstatus. split.
    + unfold ListingViews.list_action, ListingViews.get_queryset. simpl.
      apply map_lookup_filter_None. right. intros x Hx. simpl. congruence.
    + unfold ListingViews.retrieve, ListingViews.get_object,
        ListingViews.get_queryset, check_object_permissions. run_view.
      by rewrite Hl.
Qed.

Lemma list_scoped_to_approved_witness :
  ListingViews.list_action (tables world_listed) !! 0 = None
  ∧ ListingViews.retrieve 0 (mk_world (tables world_listed) [])
    = (Returned (mk_instance 0 (Listing.mk 1 "Cottage" "Nakuru" 80 "pending")),
       mk_world (tables world_listed) [SelectListing 0]).
Proof.
  apply (list_scoped_to_approved (tables world_listed)).
  - by vm_compute.
  - discriminate.
Defined.

(** ** Creation: the host profile, then the serializer *)

Lemma with_role_host_id (p : UserProfile.t) :
  UserProfile.role p = "host" → UserProfile.with_role "host" p = p.
Proof. destruct p as [r v]. simpl. by intros ->. Qed.

Lemma perform_create_run (user : nat) (serializer : Serializer) (w : world) :
  ListingViews.perform_create user serializer w
  = save serializer
      (mk_instance user (host_profile (UserProfile_objects (tables w) !! user)))
      (mk_world (promoted user (tables w))
         (queries w
          ++ promotion_queries user (UserProfile_objects (tables w) !! user))).
Proof.
  unfold ListingViews.perform_create, UserProfile_get_or_create,
    UserProfile_save, promoted, promotion_queries, bind, send, read_tables,
    write_tables, ret.
  simpl. destruct (UserProfile_objects (tables w) !! user) as [p|] eqn:Hp; simpl.
  - case_bool_decide as Hrole; simpl.
    + rewrite with_role_host_id by done. rewrite insert_id by done.
      by destruct w as [[] ?].
    + rewrite <- app_assoc. done.
  - rewrite <- app_assoc. done.
Qed.

Lemma booking_perform_create_run (user : nat) (serializer : Serializer) :
  BookingViews.perform_create user serializer
  = ListingViews.perform_create user serializer.
Proof. reflexivity. Qed.

Lemma listing_save_run (v : ListingSerializer.validated_data)
    (host : instance UserProfile.t) (w : world) :
  save (ListingSerializer.serializer v) host w
  = (Returned (),
     mk_world
       (mk_database (UserProfile_objects (tables w))
          (<[fresh (dom (Listing_objects (tables w))) :=
               Listing.mk (pk host) (ListingSerializer.name v)
                 (ListingSerializer.city v)
                 (ListingSerializer.price_per_night v)
                 (ListingSerializer.status v)]> (Listing_objects (tables w)))
          (Booking_objects (tables w)))
       (queries w ++ [InsertListing (fresh (dom (Listing_objects (tables w))))])).
Proof. reflexivity. Qed.

Lemma booking_save_run (v : BookingSerializer.validated_data)
    (host : instance UserProfile.t) (w : world) :
  save (BookingSerializer.serializer v) host w
  = let log :=
      queries w
      ++ [ExistsBooking (BookingSerializer.property v)
            (BookingSerializer.start_date v) (BookingSerializer.end_date v)] in
    if bool_decide (rows (conflict_query v) (tables w) = ∅) then
      let booking_id := fresh (dom (Booking_objects (tables w))) in
      if bool_decide (is_Some (Listing_objects (tables w)
                               !! BookingSerializer.property v)) then
        (Returned (),
         mk_world
           (mk_database (UserProfile_objects (tables w))
              (Listing_objects (tables w))
              (<[booking_id :=
                   Booking.mk (BookingSerializer.property v) (pk host)
                     (BookingSerializer.status v)
                     (BookingSerializer.start_date v)
                     (BookingSerializer.end_date v)]>
                 (Booking_objects (tables w))))
           (log ++ [InsertBooking booking_id]))
      else
        (Raised IntegrityError,
         mk_world (tables w) (log ++ [InsertBooking booking_id]))
    else (Raised ConflictError, mk_world (tables w) log).
Proof.
  unfold BookingSerializer.serializer, qs_exists, conflict_query. run_view.
  case_bool_decide; simpl; [|done]. by case_bool_decide.
Qed.

Lemma createListing_run (user : nat) (v : ListingSerializer.validated_data)
    (w : world) :
  fst (createListing user v w) = Returned ()
  ∧ UserProfile_objects (tables (snd (createListing user v w)))
    = UserProfile_objects (promoted user (tables w))
  ∧ Booking_objects (tables (snd (createListing user v w)))
    = Booking_objects (tables w).
Proof.
  unfold createListing. rewrite perform_create_run, listing_save_run. done.
Qed.

Lemma createBooking_run (user : nat) (v : BookingSerializer.validated_data)
    (w : world) :
  createBooking user v w
  = let log :=
      queries w
      ++ promotion_queries user (UserProfile_objects (tables w) !! user)
      ++ [ExistsBooking (BookingSerializer.property v)
            (BookingSerializer.start_date v) (BookingSerializer.end_date v)] in
    if bool_decide (rows (conflict_query v) (tables w) = ∅) then
      let booking_id := fresh (dom (Booking_objects (tables w))) in
      if bool_decide (is_Some (Listing_objects (tables w)
                               !! BookingSerializer.property v)) then
        (Returned (),
         mk_world
           (mk_database (UserProfile_objects (promoted user (tables w)))
              (Listing_objects (tables w))
              (<[booking_id :=
                   Booking.mk (BookingSerializer.property v) user
                     (BookingSerializer.status v)
                     (BookingSerializer.start_date v)
                     (BookingSerializer.end_date v)]>
                 (Booking_objects (tables w))))
           (log ++ [InsertBooking booking_id]))
      else
        (Raised IntegrityError,
         mk_world (promoted user (tables w)) (log ++ [InsertBooking booking_id]))
    else (Raised ConflictError, mk_world (promoted user (tables w)) log).
Proof.
  unfold createBooking.
  rewrite booking_perform_create_run, perform_create_run, booking_save_run.
  simpl. rewrite <- !app_assoc. done.
Qed.

Lemma promoted_profiles (user : nat) (d : database) :
  UserProfile_objects (promoted user d)
  = <[user := host_profile (UserProfile_objects d !! user)]>
      (UserProfile_objects d).
Proof. reflexivity. Qed.

Lemma promoted_lookup (user : nat) (d : database) :
  UserProfile_objects (promoted user d) !! user
  = Some (host_profile (UserProfile_objects d !! user)).
Proof. unfold promoted. simpl. apply lookup_insert_eq. Qed.

Lemma host_profile_role (existing : option UserProfile.t) :
  UserProfile.role (host_profile existing) = "host".
Proof. by destruct existing. Qed.

Lemma promoted_idempotent (user : nat) (d : database) :
  UserProfile_objects (promoted user (promoted user d))
  = UserProfile_objects (promoted user d).
Proof.
  rewrite (promoted_profiles user (promoted user d)), promoted_lookup.
  simpl. rewrite with_role_host_id by apply host_profile_role.
  apply insert_id, promoted_lookup.
Qed.

Lemma creation_profiles (user : nat) (serializer : Serializer)
    (w : world) (o : outcome unit) (w' : world) :
  keeps_profiles serializer →
  ListingViews.perform_create user serializer w = (o, w')
  ∨ BookingViews.perform_create user serializer w = (o, w') →
  UserProfile_objects (tables w') = UserProfile_objects (promoted user (tables w)).
Proof.
  intros Hkeep Hrun.
  assert (ListingViews.perform_create user serializer w = (o, w')) as Hrun'.
  { destruct Hrun as [H|H]; [|rewrite booking_perform_create_run in H];
      exact H. }
  rewrite perform_create_run in Hrun'.
  specialize (Hkeep
    (mk_instance user (host_profile (UserProfile_objects (tables w) !! user)))
    (mk_world (promoted user (tables w))
       (queries w
        ++ promotion_queries user (UserProfile_objects (tables w) !! user)))).
  rewrite Hrun' in Hkeep. exact Hkeep.
Qed.

Lemma listing_serializer_keeps_profiles (v : ListingSerializer.validated_data) :
  keeps_profiles (ListingSerializer.serializer v).
Proof. intros host w0. by rewrite listing_save_run. Qed.

Lemma booking_serializer_keeps_profiles (v : BookingSerializer.validated_data) :
  keeps_profiles (BookingSerializer.serializer v).
Proof.
  intros host w0. rewrite booking_save_run. simpl.
  by repeat case_bool_decide.
Qed.

(** C5. After a successful [perform_create] of either view set, with a
    serializer that writes no profile, the principal's profile exists
    with role host: a fresh host profile if there was none, the existing
    profile with its role set to host otherwise; and a further creation
    by the same principal leaves the profile table as it is. *)
Theorem creation_leaves_host_profile
    (user : nat) (serializer : Serializer) (w w' : world) :
  keeps_profiles serializer →
  ListingViews.perform_create user serializer w = (Returned (), w')
  ∨ BookingViews.perform_create user serializer w = (Returned (), w') →
  (∃ p, UserProfile_objects (tables w') !! user = Some p
        ∧ UserProfile.role p = "host")
  ∧ (UserProfile_objects (tables w) !! user = None →
     UserProfile_objects (tables w') !! user = Some (new_profile "host"))
  ∧ (∀ p, UserProfile_objects (tables w) !! user = Some p →
          UserProfile_objects (tables w') !! user
          = Some (UserProfile.with_role "host" p))
  ∧ (∀ again o w'',
       keeps_profiles again →
       ListingViews.perform_create user again w' = (o, w'')
       ∨ BookingViews.perform_create user again w' = (o, w'') →
       UserProfile_objects (tables w'') = UserProfile_objects (tables w')).
Proof.
  intros Hkeep Hcreate.
  pose proof (creation_profiles _ _ _ _ _ Hkeep Hcreate) as Hw'.
  repeat split.
  - exists (host_profile (UserProfile_objects (tables w) !! user)).
    rewrite Hw', promoted_lookup. split; [done|]. apply host_profile_role.
  - intros Hnone. by rewrite Hw', promoted_lookup, Hnone.
  - intros p Hp. by rewrite Hw', promoted_lookup, Hp.
  - intros again o w'' Hkeep' Hagain.
    rewrite (creation_profiles _ _ _ _ _ Hkeep' Hagain).
    rewrite promoted_profiles, Hw', <- promoted_profiles.
    apply promoted_idempotent.
Qed.

Lemma creation_leaves_host_profile_witness :
  (∃ p, UserProfile_objects (tables world_listed) !! 1 = Some p
        ∧ UserProfile.role p = "host")
  ∧ (UserProfile_objects (tables initial_world) !! 1 = None →
     UserProfile_objects (tables world_listed) !! 1 = Some (new_profile "host"))
  ∧ (∀ p, UserProfile_objects (tables initial_world) !! 1 = Some p →
          UserProfile_objects (tables world_listed) !! 1
          = Some (UserProfile.with_role "host" p))
  ∧ (∀ again o w'',
       keeps_profiles again →
       ListingViews.perform_create 1 again world_listed = (o, w'')
       ∨ BookingViews.perform_create 1 again world_listed = (o, w'') →
       UserProfile_objects (tables w'')
       = UserProfile_objects (tables world_listed)).
Proof.
  apply (creation_leaves_host_profile 1 (ListingSerializer.serializer cottage)
           initial_world world_listed).
  - apply listing_serializer_keeps_profiles.
  - left. by vm_compute.
Defined.

Example second_creation_keeps_host :
  UserProfile_objects (tables (snd (createBooking 1 long_stay world_listed)))
  = UserProfile_objects (tables world_listed)
  ∧ UserProfile_objects
      (tables (snd (createListing 5 cottage world_guest))) !! 5
    = Some (UserProfile.mk "host" true).
Proof. by vm_compute. Qed.

(** ** Creation that fails *)

Lemma promoted_unchanged_iff (user : nat) (d : database) :
  UserProfile_objects (promoted user d) = UserProfile_objects d
  ↔ ∃ p, UserProfile_objects d !! user = Some p ∧ UserProfile.role p = "host".
Proof.
  split.
  - intros Heq. pose proof (promoted_lookup user d) as Hl.
    rewrite Heq in Hl. eexists. split; [exact Hl|].
    apply host_profile_role.
  - intros (p & Hp & Hrole). rewrite promoted_profiles, Hp. simpl.
    rewrite with_role_host_id by done. by apply insert_id.
Qed.

(** C9, as the code has it. The profile is ensured before the entity is
    created and nothing undoes it: when [serializer.save] fails without
    writing, the tables are the ones the promotion left, so the
    principal's profile exists with role host, and the profile table is
    unchanged only if the principal already had a host profile. *)
Theorem failed_creation_keeps_promotion
    (user : nat) (serializer : Serializer) (w w' : world) (e : exn) :
  (∀ host w0 e0 w1,
     save serializer host w0 = (Raised e0, w1) → tables w1 = tables w0) →
  ListingViews.perform_create user serializer w = (Raised e, w')
  ∨ BookingViews.perform_create user serializer w = (Raised e, w') →
  tables w' = promoted user (tables w)
  ∧ (∃ p, UserProfile_objects (tables w') !! user = Some p
          ∧ UserProfile.role p = "host")
  ∧ (UserProfile_objects (tables w') = UserProfile_objects (tables w)
     ↔ ∃ p, UserProfile_objects (tables w) !! user = Some p
            ∧ UserProfile.role p = "host").
Proof.
  intros Hclean Hfail.
  assert (tables w' = promoted user (tables w)) as Hw'.
  { assert (ListingViews.perform_create user serializer w = (Raised e, w'))
      as Hrun.
    { destruct Hfail as [H|H]; [|rewrite booking_perform_create_run in H];
        exact H. }
    rewrite perform_create_run in Hrun. by apply Hclean in Hrun. }
  split; [done|]. rewrite Hw'. split.
  - eexists. split; [apply promoted_lookup|apply host_profile_role].
  - apply promoted_unchanged_iff.
Qed.

Lemma booking_save_fails_clean (v : BookingSerializer.validated_data)
    (host : instance UserProfile.t) (w0 : world) (e0 : exn) (w1 : world) :
  save (BookingSerializer.serializer v) host w0 = (Raised e0, w1) →
  tables w1 = tables w0.
Proof.
  rewrite booking_save_run. simpl.
  repeat case_bool_decide; intros Hrun; by inversion Hrun.
Qed.

Lemma failed_creation_keeps_promotion_witness :
  let w' := snd (createBooking 5 long_stay world_guest) in
  tables w' = promoted 5 (tables world_guest)
  ∧ (∃ p, UserProfile_objects (tables w') !! 5 = Some p
          ∧ UserProfile.role p = "host")
  ∧ (UserProfile_objects (tables w') = UserProfile_objects (tables world_guest)
     ↔ ∃ p, UserProfile_objects (tables world_guest) !! 5 = Some p
            ∧ UserProfile.role p = "host").
Proof.
  apply (failed_creation_keeps_promotion 5
           (BookingSerializer.serializer long_stay) world_guest
           (snd (createBooking 5 long_stay world_guest)) IntegrityError).
  - intros host w0 e0 w1. apply booking_save_fails_clean.
  - right. by vm_compute.
Defined.

(** C9, as stated, fails: user 5 has a guest profile and books a listing
    that does not exist; the creation raises and the profile has become a
    host profile all the same. The same happens to a principal without a
    profile, who is left with a fresh host profile. *)
Lemma failed_booking_promotes_profile :
  let r := createBooking 5 long_stay world_guest in
  let r0 := createBooking 5 long_stay initial_world in
  fst r = Raised IntegrityError
  ∧ UserProfile_objects (tables world_guest) !! 5
    = Some (UserProfile.mk "guest" true)
  ∧ UserProfile_objects (tables (snd r)) !! 5
    = Some (UserProfile.mk "host" true)
  ∧ fst r0 = Raised IntegrityError
  ∧ UserProfile_objects (tables initial_world) !! 5 = None
  ∧ UserProfile_objects (tables (snd r0)) !! 5
    = Some (UserProfile.mk "host" false).
Proof. by vm_compute. Qed.

(** ** Creation and the availability check *)



Lemma createBooking_checks_first
    (user : nat) (v : BookingSerializer.validated_data) (w : world) :
  ∃ log,
    queries (snd (createBooking user v w))
    = queries w
      ++ promotion_queries user (UserProfile_objects (tables w) !! user)
      ++ ExistsBooking (BookingSerializer.property v)
           (BookingSerializer.start_date v) (BookingSerializer.end_date v)
         :: log
    ∧ (log = []
       ∨ log = [InsertBooking (fresh (dom (Booking_objects (tables w))))]).
Proof.
  rewrite createBooking_run. simpl.
  repeat case_bool_decide; simpl; eexists;
    (split; [by rewrite <- ?app_assoc|]); first [by left|by right].
Qed.

Example createBooking_available_inserts :
  let r := createBooking 3
             (BookingSerializer.mk 0 "confirmed" d_2024_01_05 d_2024_01_10)
             world_booked in
  fst r = Returned ()
  ∧ drop (length (queries world_booked)) (queries (snd r))
    = [SelectProfile 3; InsertProfile 3;
       ExistsBooking 0 d_2024_01_05 d_2024_01_10; InsertBooking 1].
Proof. by vm_compute. Qed.


(** ** The no-double-booking invariant *)

Lemma availability_tables (strptime : string → option date.t)
    (request : Request) (property_id : nat) (w : world) :
  tables (snd (ListingViews.availability strptime request property_id w))
  = tables w.
Proof. by rewrite availability_run. Qed.

Lemma no_double_booking_ext (d d' : database) :
  Booking_objects d' = Booking_objects d →
  no_double_booking d → no_double_booking d'.
Proof. unfold no_double_booking. by intros ->. Qed.

Lemma no_double_booking_insert (d d' : database) (k user : nat)
    (v : BookingSerializer.validated_data) :
  rows (conflict_query v) d = ∅ →
  Booking_objects d'
  = <[k := Booking.mk (BookingSerializer.property v) user
             (BookingSerializer.status v) (BookingSerializer.start_date v)
             (BookingSerializer.end_date v)]> (Booking_objects d) →
  no_double_booking d → no_double_booking d'.
Proof.
  intros Hfree Hd' Hinv i j a b Hi Hj Hij Hprop Ha Hb [Hab Hba].
  rewrite Hd' in Hi, Hj. rewrite lookup_insert in Hi, Hj.
  assert (∀ n c, Booking_objects d !! n = Some c →
                 blocks (BookingSerializer.property v)
                   (BookingSerializer.start_date v)
                   (BookingSerializer.end_date v) c → False) as Hnone.
  { intros n c Hn Hc. apply matches_blocks in Hc.
    by eapply (map_filter_empty_not_lookup _ _ n c Hfree). }
  destruct (decide (k = i)) as [Hki|], (decide (k = j)) as [Hkj|];
    simplify_eq; simpl in *.
  - apply (Hnone j b Hj). by repeat split.
  - apply (Hnone i a Hi). by repeat split.
  - by apply (Hinv i j a b).
Qed.

Lemma step_no_double_booking (w w' : world) :
  step w w' →
  no_double_booking (tables w) → no_double_booking (tables w').
Proof.
  intros [user v w0|user v w0|strptime request property_id w0].
  - apply no_double_booking_ext, createListing_run.
  - rewrite createBooking_run. simpl. repeat case_bool_decide; simpl.
    + by apply (no_double_booking_insert (tables w0) _
                  (fresh (dom (Booking_objects (tables w0)))) user v).
    + by apply no_double_booking_ext.
    + by apply no_double_booking_ext.
  - by rewrite availability_tables.
Qed.

(** C3. With the persistence step refusing a booking whose interval the
    conflict query finds taken, in every state reached from the empty
    database through createListing, createBooking and the availability
    check, no two distinct pending or confirmed bookings of one listing
    overlap. *)
Theorem reachable_bookings_disjoint (w : world) :
  reachable w → no_double_booking (tables w).
Proof.
  induction 1 as [|w w' _ IH Hstep].
  - intros i j a b Hi. simpl in Hi. by rewrite lookup_empty in Hi.
  - by apply (step_no_double_booking w w').
Qed.

Lemma reachable_bookings_disjoint_witness :
  no_double_booking (tables world_two_stays).
Proof.
  apply (reachable_bookings_disjoint world_two_stays).
  apply (reachable_step world_booked).
  - apply (reachable_step world_listed).
    + apply (reachable_step initial_world).
      * apply reachable_initial.
      * apply (step_createListing 1 cottage initial_world).
    + apply (step_createBooking 2
               (BookingSerializer.mk 0 "pending" d_2024_01_01 d_2024_01_05)
               world_listed).
  - apply (step_createBooking 3
             (BookingSerializer.mk 0 "confirmed" d_2024_01_05 d_2024_01_10)
             world_booked).
Defined.

Example two_stays_stored :
  Booking_objects (tables world_two_stays) !! 0
  = Some (Booking.mk 0 2 "pending" d_2024_01_01 d_2024_01_05)
  ∧ Booking_objects (tables world_two_stays) !! 1
    = Some (Booking.mk 0 3 "confirmed" d_2024_01_05 d_2024_01_10)
  ∧ size (Booking_objects (tables world_double)) = 1.
Proof. by vm_compute. Qed.

(** ** Access policy *)

(** C8. What an unauthenticated request meets, action by action. Creating
    a listing is refused with an authorization error. Updating or deleting
    a listing never reaches the permission test: [get_permissions] reads
    [permission_classes], which its last branch did not assign, and raises
    [UnboundLocalError], for any request. [BookingViews.get_permissions]
    returns [None] for every action, and iterating over it raises
    [TypeError], for any request. In no case does the handler run. *)
Theorem unauthenticated_mutation_outcomes
    {A : Type} (handler : M A) (request : Request) (action : string)
    (w : world) :
  dispatch (ListingViews.get_permissions "create") anonymous handler w
  = (Raised NotAuthenticated, w)
  ∧ dispatch (ListingViews.get_permissions "update") request handler w
    = (Raised (UnboundLocalError "permission_classes"), w)
  ∧ dispatch (ListingViews.get_permissions "partial_update") request handler w
    = (Raised (UnboundLocalError "permission_classes"), w)
  ∧ dispatch (ListingViews.get_permissions "destroy") request handler w
    = (Raised (UnboundLocalError "permission_classes"), w)
  ∧ dispatch (BookingViews.get_permissions action) request handler w
    = (Raised (TypeError "'NoneType' object is not iterable"), w)
  ∧ is_AuthorizationError
      (fst (dispatch (ListingViews.get_permissions "update") anonymous
              handler w)) = false
  ∧ is_AuthorizationError
      (fst (dispatch (BookingViews.get_permissions "create") anonymous
              handler w)) = false.
Proof. repeat split. Qed.

Example listing_custom_actions_unbound :
  ListingViews.get_permissions "availability"
  = Raised (UnboundLocalError "permission_classes").
Proof. reflexivity. Qed.

(** ** The availability action of BookingViews *)

Lemma reuest_unbound {A} (v : A) : global "reuest" v = raise (NameError "reuest").
Proof.
  unfold global.
  assert (bool_decide ("reuest" ∈ module_globals) = false) as ->
    by (by vm_compute).
  done.
Qed.

(** C10. [BookingViews.availability] never gets to the conflict query:
    once [get_object] has returned, reading [reuest], a name nothing
    binds, raises [NameError]; whatever the dates are, the handler
    returns no value, runs no booking query and leaves the world as
    [get_object] left it. *)
Theorem booking_availability_unbound_request
    (strptime : string → option date.t) (get_object : M (instance Listing.t))
    (request : Request) (w : world) :
  BookingViews.availability strptime get_object request w
  = match get_object w with
    | (Returned _, w1) => (Raised (NameError "reuest"), w1)
    | (Raised e, w1) => (Raised e, w1)
    end.
Proof.
  unfold BookingViews.availability, bind.
  destruct (get_object w) as [[listing|e] w1]; [|done].
  by rewrite reuest_unbound.
Qed.

Example booking_availability_valid_dates :
  BookingViews.availability strptime_Ymd
    (ret (mk_instance 0 (Listing.mk 1 "Cottage" "Nakuru" 80 "pending")))
    (dates_request (Some 3) "2024-01-01" "2024-01-10") world_short_stay
  = (Raised (NameError "reuest"), world_short_stay).
Proof. by vm_compute. Qed.

(** * Further properties of the views *)

(** ** The conflict query and the bookings it leaves out *)

(** X2. A booking whose status is neither pending nor confirmed, or that
    belongs to another listing, is never selected by the conflict query:
    storing it under an unused key leaves the rows of the query, and so
    what [exists()] and [count()] give, unchanged for every interval. *)
Theorem conflict_query_ignores_inactive_or_foreign
    (property_id : nat) (s e : date.t) (d : database) (k : nat)
    (b : Booking.t) :
  Booking_objects d !! k = None →
  ¬ active (Booking.status b) ∨ Booking.property b ≠ property_id →
  rows (Booking_objects_filter property_id ["pending"; "confirmed"] e s)
    (mk_database (UserProfile_objects d) (Listing_objects d)
       (<[k := b]> (Booking_objects d)))
  = rows (Booking_objects_filter property_id ["pending"; "confirmed"] e s) d.
Proof.
  intros Hk Hb. unfold rows. simpl.
  apply map_filter_insert_not'.
  - simpl. rewrite matches_blocks. unfold blocks. tauto.
  - intros y Hy. congruence.
Qed.

Lemma conflict_query_ignores_inactive_or_foreign_witness :
  rows (Booking_objects_filter 0 ["pending"; "confirmed"]
          d_2024_01_10 d_2024_01_01) (tables world_cancelled)
  = rows (Booking_objects_filter 0 ["pending"; "confirmed"]
            d_2024_01_10 d_2024_01_01) (tables world_short_stay).
Proof.
  apply (conflict_query_ignores_inactive_or_foreign 0 d_2024_01_01
           d_2024_01_10 (tables world_short_stay) 1
           (Booking.mk 0 4 "cancelled" d_2024_01_01 d_2024_01_10)).
  - by vm_compute.
  - left. unfold active. simpl. intros [?|?]; discriminate.
Defined.

(** ** Order of dates and nested intervals *)

Lemma date_leb_le (a b : date.t) : date_leb a b = true ↔ ¬ date.lt b a.
Proof.
  unfold date_leb. rewrite negb_true_iff, <- not_true_iff_false.
  by rewrite date_ltb_lt.
Qed.

Lemma date_lt_le_trans (a b c : date.t) :
  date.lt a b → ¬ date.lt c b → date.lt a c.
Proof. unfold date.lt. lia. Qed.

Lemma date_le_lt_trans (a b c : date.t) :
  ¬ date.lt b a → date.lt b c → date.lt a c.
Proof. unfold date.lt. lia. Qed.

Lemma blocks_widen (listing : nat) (s e s' e' : date.t) (b : Booking.t) :
  date_leb s' s = true → date_leb e e' = true →
  blocks listing s e b → blocks listing s' e' b.
Proof.
  rewrite !date_leb_le. intros Hs He (Hp & Ha & Hse & Hes).
  repeat split; [done..| |].
  - by apply (date_lt_le_trans _ e).
  - by apply (date_le_lt_trans _ s).
Qed.

(** X3. The conflict query is monotone in the interval: when the dates
    of one query lie within those of another ([s' <= s] and [e <= e']),
    every row the inner query selects is selected by the outer one, its
    count is at most the outer count, and if the outer query selects
    nothing neither does the inner one. *)
Theorem conflict_query_monotone
    (property_id : nat) (s e s' e' : date.t) (d : database) :
  date_leb s' s = true → date_leb e e' = true →
  let inner :=
    rows (Booking_objects_filter property_id ["pending"; "confirmed"] e s) d in
  let outer :=
    rows (Booking_objects_filter property_id ["pending"; "confirmed"] e' s') d
  in
  inner ⊆ outer
  ∧ (size inner ≤ size outer)%nat
  ∧ (outer = ∅ → inner = ∅).
Proof.
  intros Hs He inner outer.
  assert (inner ⊆ outer) as Hsub.
  { subst inner outer. rewrite !rows_blocking. unfold blocking.
    apply map_filter_subseteq_ext. intros i b _. simpl.
    by apply blocks_widen. }
  split; [done|]. split; [by apply map_subseteq_size|].
  intros Hempty. rewrite Hempty in Hsub.
  apply map_empty. intros i.
  destruct (inner !! i) as [b|] eqn:Hb; [|done].
  pose proof (lookup_weaken _ _ _ _ Hb Hsub) as Hin.
  by rewrite lookup_empty in Hin.
Qed.

Lemma conflict_query_monotone_witness :
  let inner :=
    rows (Booking_objects_filter 0 ["pending"; "confirmed"]
            d_2024_01_05 d_2024_01_03) (tables world_short_stay) in
  let outer :=
    rows (Booking_objects_filter 0 ["pending"; "confirmed"]
            d_2024_01_10 d_2024_01_01) (tables world_short_stay) in
  inner ⊆ outer
  ∧ (size inner ≤ size outer)%nat
  ∧ (outer = ∅ → inner = ∅).
Proof.
  apply (conflict_query_monotone 0 d_2024_01_03 d_2024_01_05 d_2024_01_01
           d_2024_01_10 (tables world_short_stay)); by vm_compute.
Defined.

(** X4. The conflict test is symmetric: for two pending or confirmed
    bookings, the query built from the first one's listing and dates
    matches the second exactly when the query built from the second one's
    listing and dates matches the first. *)
Theorem conflict_symmetric (a b : Booking.t) :
  active (Booking.status a) → active (Booking.status b) →
  matches (Booking_objects_filter (Booking.property a) ["pending"; "confirmed"]
             (Booking.end_date a) (Booking.start_date a)) b
  = matches (Booking_objects_filter (Booking.property b)
               ["pending"; "confirmed"]
               (Booking.end_date b) (Booking.start_date b)) a.
Proof.
  intros Ha Hb. apply elem_of_active in Ha, Hb.
  unfold matches, date.gtb. simpl.
  rewrite !(bool_decide_eq_true_2 (_ ∈ _)) by done.
  rewrite !andb_true_r.
  assert (bool_decide (Booking.property b = Booking.property a)
          = bool_decide (Booking.property a = Booking.property b)) as ->.
  { apply bool_decide_ext. split; congruence. }
  rewrite <- !andb_assoc. f_equal. apply andb_comm.
Qed.

Lemma conflict_symmetric_witness :
  matches (Booking_objects_filter 0 ["pending"; "confirmed"]
             d_2024_01_04 d_2024_01_03)
    (Booking.mk 0 3 "pending" d_2024_01_01 d_2024_01_10)
  = matches (Booking_objects_filter 0 ["pending"; "confirmed"]
               d_2024_01_10 d_2024_01_01)
      (Booking.mk 0 2 "confirmed" d_2024_01_03 d_2024_01_04).
Proof.
  apply (conflict_symmetric
           (Booking.mk 0 2 "confirmed" d_2024_01_03 d_2024_01_04)
           (Booking.mk 0 3 "pending" d_2024_01_01 d_2024_01_10)).
  - by right.
  - by left.
Defined.

(** ** Creation followed by a read *)

Lemma fresh_key_unused {A} (m : gmap nat A) : m !! fresh (dom m) = None.
Proof. apply not_elem_of_dom, is_fresh. Qed.

(** X6. A listing just created can be retrieved: [createListing] always
    returns, the new row sits under a key that was unused, a retrieve of
    that key returns the submitted data with the principal as host, the
    list action shows it exactly when it was created with status
    approved, and the listings and bookings that were there stay. *)
Theorem created_listing_retrievable
    (user : nat) (v : ListingSerializer.validated_data) (w : world) :
  let k := fresh (dom (Listing_objects (tables w))) in
  let w1 := snd (createListing user v w) in
  let l := Listing.mk user (ListingSerializer.name v) (ListingSerializer.city v)
             (ListingSerializer.price_per_night v) (ListingSerializer.status v)
  in
  fst (createListing user v w) = Returned ()
  ∧ Listing_objects (tables w) !! k = None
  ∧ fst (ListingViews.retrieve k w1) = Returned (mk_instance k l)
  ∧ (ListingViews.list_action (tables w1) !! k = Some l
     ↔ ListingSerializer.status v = "approved")
  ∧ (∀ k' l', Listing_objects (tables w) !! k' = Some l' →
              Listing_objects (tables w1) !! k' = Some l')
  ∧ Booking_objects (tables w1) = Booking_objects (tables w).
Proof.
  intros k w1 l. subst w1. unfold createListing.
  rewrite perform_create_run, listing_save_run. simpl. fold k l.
  split; [done|]. split; [apply fresh_key_unused|]. split; [|split; [|split]].
  - unfold ListingViews.retrieve, ListingViews.get_object,
      ListingViews.get_queryset, check_object_permissions. run_view.
    by rewrite lookup_insert_eq.
  - unfold ListingViews.list_action, ListingViews.get_queryset. simpl.
    rewrite map_lookup_filter_Some, lookup_insert_eq. simpl.
    split; [by intros [_ ?]|by intros ?].
  - intros k' l' Hk'. rewrite lookup_insert_ne; [done|].
    intros <-. subst k. by rewrite fresh_key_unused in Hk'.
  - done.
Qed.

(** ** What [perform_create] does before it saves *)

(** X7. Whatever the serializer, both [perform_create] bodies call its
    [save] with the stored profile of the principal, whose role is host
    and whose verification flag is the one it had; up to that call the
    other profiles, the listings and the bookings are untouched, and after
    the profile lookup at most one write was sent, an insert or an
    update. *)
Theorem perform_create_hands_over_host_profile
    (user : nat) (serializer : Serializer) (w : world) :
  ∃ host w0 log,
    ListingViews.perform_create user serializer w = save serializer host w0
    ∧ BookingViews.perform_create user serializer w = save serializer host w0
    ∧ pk host = user
    ∧ UserProfile.role (row host) = "host"
    ∧ UserProfile_objects (tables w0) !! user = Some (row host)
    ∧ (∀ p, UserProfile_objects (tables w) !! user = Some p →
            UserProfile.email_verified (row host)
            = UserProfile.email_verified p)
    ∧ (∀ u, u ≠ user →
            UserProfile_objects (tables w0) !! u
            = UserProfile_objects (tables w) !! u)
    ∧ Listing_objects (tables w0) = Listing_objects (tables w)
    ∧ Booking_objects (tables w0) = Booking_objects (tables w)
    ∧ queries w0 = queries w ++ SelectProfile user :: log
    ∧ (log = [] ∨ log = [InsertProfile user] ∨ log = [UpdateProfile user]).
Proof.
  eexists _, _,
    (tail (promotion_queries user (UserProfile_objects (tables w) !! user))).
  split; [apply perform_create_run|].
  split; [rewrite booking_perform_create_run; apply perform_create_run|].
  simpl. split; [done|]. split; [apply host_profile_role|].
  split; [apply lookup_insert_eq|].
  split; [by intros p ->|].
  split; [intros u Hu; by apply lookup_insert_ne|].
  split; [done|]. split; [done|].
  unfold promotion_queries.
  destruct (UserProfile_objects (tables w) !! user) as [p|].
  - case_bool_decide; (split; [reflexivity|]); [by left|by right; right].
  - split; [reflexivity|]. by right; left.
Qed.

(** ** The access table of ListingViews, action by action *)

(** X8. For every action and every request, what [dispatch] does with
    [ListingViews.get_permissions]: list and retrieve run the handler for
    anyone; create runs it for an authenticated principal and refuses an
    anonymous one; every other action, the custom reviews, availability
    and search actions included, raises [UnboundLocalError] whoever asks,
    and the handler does not run. *)
Theorem listing_dispatch_table
    {A : Type} (handler : M A) (request : Request) (action : string)
    (w : world) :
  dispatch (ListingViews.get_permissions action) request handler w
  = if bool_decide (action = "list" ∨ action = "retrieve") then handler w
    else if bool_decide (action = "create") then
      match request_user request with
      | Some _ => handler w
      | None => (Raised NotAuthenticated, w)
      end
    else (Raised (UnboundLocalError "permission_classes"), w).
Proof.
  unfold dispatch, check_permissions, ListingViews.get_permissions,
    permission_denied.
  assert (bool_decide (action ∈ ["list"; "retrieve"])
          = bool_decide (action = "list" ∨ action = "retrieve")) as ->.
  { apply bool_decide_ext. rewrite !elem_of_cons, elem_of_nil. tauto. }
  repeat case_bool_decide; run_view; try done.
  by destruct (request_user request) as [u|].
Qed.

Example search_action_unreachable :
  fst (dispatch (ListingViews.get_permissions "search") (mk_request (Some 1) ∅)
         (ret ()) initial_world)
  = Raised (UnboundLocalError "permission_classes").
Proof. reflexivity. Qed.

(** ** The profile view set *)

(** X9. For every action, method and request, what the dispatch of
    [UserProfileVViews] does: list runs the handler for an authenticated
    principal and for anyone using a safe method, and refuses the rest;
    create runs it for anyone; every other action, [me] (whose decorator
    asks for authentication), retrieve, update, delete, listings and
    bookings included, raises [UnboundLocalError] and the handler does not
    run. *)
Theorem profile_dispatch_table
    {A : Type} (handler : M A) (request : Request) (action method : string)
    (w : world) :
  UserProfileVViews.dispatch action method request handler w
  = if bool_decide (action = "list") then
      match request_user request with
      | Some _ => handler w
      | None =>
          if bool_decide (method ∈ UserProfileVViews.SAFE_METHODS)
          then handler w
          else (Raised NotAuthenticated, w)
      end
    else if bool_decide (action = "create") then handler w
    else (Raised (UnboundLocalError "permission_classes"), w).
Proof.
  unfold UserProfileVViews.dispatch, UserProfileVViews.get_permissions,
    permission_denied.
  repeat case_bool_decide; simpl; try done.
  - rewrite bool_decide_eq_true_2 by done. simpl.
    by destruct (request_user request).
  - rewrite bool_decide_eq_false_2 by done. simpl.
    by destruct (request_user request).
Qed.

Example me_action_unreachable :
  fst (UserProfileVViews.dispatch "me" "GET" (mk_request (Some 1) ∅)
         (ret ()) initial_world)
  = Raised (UnboundLocalError "permission_classes").
Proof. reflexivity. Qed.

Lemma me_run
    {data : Type} (serializer_data : instance UserProfile.t → data)
    (user : nat) (w : world) :
  UserProfileVViews.me data serializer_data user w
  = (match UserProfile_objects (tables w) !! user with
     | Some profile =>
         Returned
           (UserProfileVViews.ProfileData
              (serializer_data (mk_instance user profile)), 200)
     | None => Raised (NameError "status")
     end,
     mk_world (tables w) (queries w ++ [SelectProfile user])).
Proof.
  unfold UserProfileVViews.me. run_view.
  by destruct (UserProfile_objects (tables w) !! user).
Qed.

(** X10. [me] reads and never writes: it sends the one profile lookup and
    leaves the tables as they are; with a profile it answers 200 with the
    serializer's data of that profile; without one it raises the
    [NameError] of the unbound [status], so the "Profile not found" body
    is never returned. *)
Theorem me_outcomes
    {data : Type} (serializer_data : instance UserProfile.t → data)
    (user : nat) (w : world) :
  ∃ o,
    UserProfileVViews.me data serializer_data user w
    = (o, mk_world (tables w) (queries w ++ [SelectProfile user]))
    ∧ (∀ profile,
         UserProfile_objects (tables w) !! user = Some profile →
         o = Returned
               (UserProfileVViews.ProfileData
                  (serializer_data (mk_instance user profile)), 200))
    ∧ (UserProfile_objects (tables w) !! user = None →
       o = Raised (NameError "status"))
    ∧ (∀ error status,
         o ≠ Returned (UserProfileVViews.ErrorBody error, status)).
Proof.
  rewrite me_run. eexists. split; [done|].
  destruct (UserProfile_objects (tables w) !! user) as [profile|].
  - split; [by intros ? [= <-]|]. split; [done|]. by intros ? ?.
  - split; [done|]. split; [done|]. by intros ? ?.
Qed.

(** X11. After a successful [perform_create] of either view set, with a
    serializer that writes no profile, [me] for the same principal
    answers 200 with a profile whose role is host. *)
Theorem me_after_creation
    {data : Type} (serializer_data : instance UserProfile.t → data)
    (user : nat) (serializer : Serializer) (w w' : world) :
  keeps_profiles serializer →
  ListingViews.perform_create user serializer w = (Returned (), w')
  ∨ BookingViews.perform_create user serializer w = (Returned (), w') →
  ∃ profile,
    fst (UserProfileVViews.me data serializer_data user w')
    = Returned
        (UserProfileVViews.ProfileData
           (serializer_data (mk_instance user profile)), 200)
    ∧ UserProfile.role profile = "host".
Proof.
  intros Hkeep Hcreate.
  pose proof (creation_profiles _ _ _ _ _ Hkeep Hcreate) as Hw'.
  exists (host_profile (UserProfile_objects (tables w) !! user)).
  rewrite me_run, Hw', promoted_lookup. split; [done|].
  apply host_profile_role.
Qed.

Lemma me_after_creation_witness :
  ∃ profile,
    fst (UserProfileVViews.me UserProfile.t row 1 world_listed)
    = Returned (UserProfileVViews.ProfileData (row (mk_instance 1 profile)), 200)
    ∧ UserProfile.role profile = "host".
Proof.
  apply (me_after_creation row 1 (ListingSerializer.serializer cottage)
           initial_world world_listed).
  - apply listing_serializer_keeps_profiles.
  - left. by vm_compute.
Defined.

(** ** Search *)

Lemma queryset_filter_step
    (lookup : string → string → option (Listing.t → bool))
    (param field : string) (request : Request)
    (queryset queryset' : gmap nat Listing.t) :
  (if negb (py_not (query_params request !! param)) then
     ListingViews.queryset_filter lookup field (query_params request !! param)
       queryset
   else inr queryset) = inr queryset' →
  ∀ k l,
    queryset' !! k = Some l
    ↔ queryset !! k = Some l
      ∧ (∀ value, query_params request !! param = Some value → value ≠ "" →
                  ∃ test, lookup field value = Some test ∧ test l = true).
Proof.
  unfold ListingViews.queryset_filter.
  destruct (query_params request !! param) as [value|]; simpl.
  - case_bool_decide as Hempty; simpl.
    + intros [= <-] k l. split; [|tauto].
      intros Hk. split; [done|]. intros ? [= <-]. done.
    + destruct (lookup field value) as [test|] eqn:Htest; [|done].
      intros [= <-] k l. rewrite map_lookup_filter_Some. simpl. split.
      * intros [Hk Hl]. split; [done|]. intros ? [= <-] _. by exists test.
      * intros [Hk Hl]. split; [done|].
        destruct (Hl value eq_refl Hempty) as (test' & Htest' & Hl').
        congruence.
  - intros [= <-] k l. split; [|tauto]. intros Hk. split; [done|]. done.
Qed.

Lemma search_queryset_rows
    (lookup : string → string → option (Listing.t → bool))
    (request : Request) (d : database) (queryset : gmap nat Listing.t) :
  ListingViews.search_queryset lookup request d = inr queryset →
  ∀ k l,
    queryset !! k = Some l
    ↔ Listing_objects d !! k = Some l
      ∧ Forall (λ pf, ∀ value,
                  query_params request !! pf.1 = Some value → value ≠ "" →
                  ∃ test, lookup pf.2 value = Some test ∧ test l = true)
          search_parameters.
Proof.
  unfold ListingViews.search_queryset, and_then, search_parameters.
  change (ListingViews.get_queryset "search" d) with (Listing_objects d).
  destruct (if negb (py_not (query_params request !! "city")) then _ else _)
    as [|q1] eqn:H1; [done|].
  destruct (if negb (py_not (query_params request !! "min_price")) then _
            else _) as [|q2] eqn:H2; [done|].
  destruct (if negb (py_not (query_params request !! "max_price")) then _
            else _) as [|q3] eqn:H3; [done|].
  destruct (if negb (py_not (query_params request !! "bedrooms")) then _
            else _) as [|q4] eqn:H4; [done|].
  intros H5 k l.
  rewrite (queryset_filter_step _ _ _ _ _ _ H5 k l),
    (queryset_filter_step _ _ _ _ _ _ H4 k l),
    (queryset_filter_step _ _ _ _ _ _ H3 k l),
    (queryset_filter_step _ _ _ _ _ _ H2 k l),
    (queryset_filter_step _ _ _ _ _ _ H1 k l).
  rewrite !Forall_cons, Forall_nil. simpl. tauto.
Qed.

(** X13. When [search] returns a page, the paginator was given exactly
    the listings that pass the field lookup of every query parameter that
    is present and not empty; nothing else is required of a row, its
    status in particular, so listings that are not approved are searched
    too, and a parameter given as the empty string filters nothing. *)
Theorem search_page_rows
    (lookup : string → string → option (Listing.t → bool)) (page : Type)
    (paginate_queryset : Request → gmap nat Listing.t → paginated page)
    (request : Request) (d : database) (p : page) :
  ListingViews.search lookup page paginate_queryset request d = inr p →
  ∃ queryset,
    paginate_queryset request queryset = Page p
    ∧ ∀ k l,
        queryset !! k = Some l
        ↔ Listing_objects d !! k = Some l
          ∧ Forall (λ pf, ∀ value,
                      query_params request !! pf.1 = Some value →
                      value ≠ "" →
                      ∃ test, lookup pf.2 value = Some test ∧ test l = true)
              search_parameters.
Proof.
  unfold ListingViews.search, and_then.
  destruct (ListingViews.search_queryset lookup request d) as [|queryset]
    eqn:Hqs; [done|].
  destruct (paginate_queryset request queryset) as [|p'|] eqn:Hpage;
    [done| |done].
  intros [= <-]. exists queryset. split; [done|].
  by apply search_queryset_rows.
Qed.

Lemma search_page_rows_witness :
  ∃ queryset,
    one_page (mk_request None {[ "city" := "Nakuru" ]}) queryset
    = Page (Listing_objects (tables world_listed))
    ∧ ∀ k l,
        queryset !! k = Some l
        ↔ Listing_objects (tables world_listed) !! k = Some l
          ∧ Forall (λ pf, ∀ value,
                      query_params (mk_request None {[ "city" := "Nakuru" ]})
                      !! pf.1 = Some value →
                      value ≠ "" →
                      ∃ test, city_lookup pf.2 value = Some test
                              ∧ test l = true)
              search_parameters.
Proof.
  apply (search_page_rows city_lookup (gmap nat Listing.t) one_page
           (mk_request None {[ "city" := "Nakuru" ]}) (tables world_listed)
           (Listing_objects (tables world_listed))).
  by vm_compute.
Defined.

Lemma queryset_filter_step_error
    (lookup : string → string → option (Listing.t → bool))
    (param field : string) (request : Request)
    (queryset : gmap nat Listing.t) (error : search_error) :
  (if negb (py_not (query_params request !! param)) then
     ListingViews.queryset_filter lookup field (query_params request !! param)
       queryset
   else inr queryset) = inl error →
  (param, field) ∈ search_parameters →
  ∃ pf value,
    pf ∈ search_parameters
    ∧ query_params request !! pf.1 = Some value
    ∧ value ≠ ""
    ∧ lookup pf.2 value = None
    ∧ error = LookupValueError pf.2 value.
Proof.
  unfold ListingViews.queryset_filter. intros Hstep Hin.
  destruct (query_params request !! param) as [value|] eqn:Hvalue;
    simpl in Hstep; [|done].
  case_bool_decide as Hempty; simpl in Hstep; [done|].
  destruct (lookup field value) as [test|] eqn:Htest; [done|].
  injection Hstep as <-. by exists (param, field), value.
Qed.

(** X14. Without a paginator [search] never returns a response: once the
    query set is built the body reads [self.get_srializer], which the
    view does not have; the only other way it ends is the refusal of a
    lookup value. *)
Theorem search_without_paginator
    (lookup : string → string → option (Listing.t → bool)) (page : Type)
    (request : Request) (d : database) :
  ∃ error,
    ListingViews.search lookup page (λ _ _, NoPaginator) request d = inl error
    ∧ (error = AttributeError "get_srializer"
       ∨ ∃ pf value,
           pf ∈ search_parameters
           ∧ query_params request !! pf.1 = Some value
           ∧ value ≠ ""
           ∧ lookup pf.2 value = None
           ∧ error = LookupValueError pf.2 value).
Proof.
  unfold ListingViews.search, ListingViews.search_queryset, and_then.
  destruct (if negb (py_not (query_params request !! "city")) then _ else _)
    as [e1|q1] eqn:H1.
  { eexists. split; [done|]. right.
    apply (queryset_filter_step_error _ _ _ _ _ _ H1).
    unfold search_parameters. rewrite !elem_of_cons. tauto. }
  destruct (if negb (py_not (query_params request !! "min_price")) then _
            else _) as [e2|q2] eqn:H2.
  { eexists. split; [done|]. right.
    apply (queryset_filter_step_error _ _ _ _ _ _ H2).
    unfold search_parameters. rewrite !elem_of_cons. tauto. }
  destruct (if negb (py_not (query_params request !! "max_price")) then _
            else _) as [e3|q3] eqn:H3.
  { eexists. split; [done|]. right.
    apply (queryset_filter_step_error _ _ _ _ _ _ H3).
    unfold search_parameters. rewrite !elem_of_cons. tauto. }
  destruct (if negb (py_not (query_params request !! "bedrooms")) then _
            else _) as [e4|q4] eqn:H4.
  { eexists. split; [done|]. right.
    apply (queryset_filter_step_error _ _ _ _ _ _ H4).
    unfold search_parameters. rewrite !elem_of_cons. tauto. }
  destruct (if negb (py_not (query_params request !! "guests")) then _
            else _) as [e5|q5] eqn:H5.
  { eexists. split; [done|]. right.
    apply (queryset_filter_step_error _ _ _ _ _ _ H5).
    unfold search_parameters. rewrite !elem_of_cons. tauto. }
  eexists. split; [done|]. by left.
Qed.

(** ** Owners and their profiles *)

Lemma promoted_has_host_profile (user : nat) (d d' : database) (u : nat) :
  UserProfile_objects d' = UserProfile_objects (promoted user d) →
  u = user ∨ has_host_profile d u → has_host_profile d' u.
Proof.
  intros Hd' Hu. unfold has_host_profile. rewrite Hd'.
  destruct (decide (u = user)) as [->|Hne].
  - rewrite promoted_lookup. eexists. split; [done|]. apply host_profile_role.
  - destruct Hu as [?|Hu]; [done|].
    rewrite promoted_profiles, lookup_insert_ne by done. exact Hu.
Qed.

Lemma owners_are_hosts_after (user : nat) (d d' : database) :
  UserProfile_objects d' = UserProfile_objects (promoted user d) →
  (∀ k l, Listing_objects d' !! k = Some l →
          Listing_objects d !! k = Some l ∨ Listing.host l = user) →
  (∀ k b, Booking_objects d' !! k = Some b →
          Booking_objects d !! k = Some b ∨ Booking.user b = user) →
  owners_are_hosts d → owners_are_hosts d'.
Proof.
  intros Hp Hlist Hbook [Hl Hb]. split.
  - intros k l Hk. apply (promoted_has_host_profile user d); [done|].
    destruct (Hlist k l Hk) as [Hold|Hnew]; [right; by apply (Hl k)|by left].
  - intros k b Hk. apply (promoted_has_host_profile user d); [done|].
    destruct (Hbook k b Hk) as [Hold|Hnew]; [right; by apply (Hb k)|by left].
Qed.

Lemma step_owners_are_hosts (w w' : world) :
  step w w' → owners_are_hosts (tables w) → owners_are_hosts (tables w').
Proof.
  intros [user v w0|user v w0|strptime request property_id w0].
  - unfold createListing. rewrite perform_create_run, listing_save_run.
    simpl. apply (owners_are_hosts_after user); [done| |by left].
    intros k l. cbn [Listing_objects]. rewrite lookup_insert. case_decide.
    + intros [= <-]. by right.
    + by left.
  - rewrite createBooking_run. simpl.
    repeat case_bool_decide; simpl;
      (apply (owners_are_hosts_after user); [done|by left|]);
      [|by left..].
    intros k b. cbn [Booking_objects]. rewrite lookup_insert. case_decide.
    + intros [= <-]. by right.
    + by left.
  - by rewrite availability_tables.
Qed.

(** X15. In every state reached from the empty database through
    [createListing], [createBooking] and the availability check, the host
    of every listing and the user of every booking has a profile whose
    role is host: creation ensures the profile before it saves and no
    operation takes the role away, also when a creation fails. *)
Theorem reachable_owners_are_hosts (w : world) :
  reachable w → owners_are_hosts (tables w).
Proof.
  induction 1 as [|w w' _ IH Hstep].
  - split; intros k x Hk; simpl in Hk; by rewrite lookup_empty in Hk.
  - by apply (step_owners_are_hosts w w').
Qed.

Lemma reachable_owners_are_hosts_witness :
  owners_are_hosts (tables world_double).
Proof.
  apply (reachable_owners_are_hosts world_double).
  apply (reachable_step world_short_stay).
  - apply (reachable_step world_listed).
    + apply (reachable_step initial_world).
      * apply reachable_initial.
      * apply (step_createListing 1 cottage initial_world).
    + apply (step_createBooking 2
               (BookingSerializer.mk 0 "confirmed" d_2024_01_03 d_2024_01_04)
               world_listed).
  - apply (step_createBooking 3 long_stay world_short_stay).
Defined.
